(** * ssl_publish: the secure connect / publish / disconnect example

    A shallow embedding of [examples/ssl_publish.cpp].  The program is
    orchestration code over the asynchronous MQTT client: it checks that
    two certificate files can be opened, builds the connect options, and
    then issues connect, publish and disconnect, waiting on each token.

    The client library itself is outside the file.  Its answers during one
    run are collected in a record [world]; [main] is written in a small
    monad that reads the world, logs every console write and every library
    call (with its outcome) in a trace, and propagates C++ exceptions. *)

From Stdlib Require Import String Ascii List ZArith Bool Lia DecimalString.
From Stdlib Require DecimalPos DecimalZ.
From ExtLib Require Import Structures.Monad Data.Monads.EitherMonad.
Import ListNotations.
Import MonadNotation.
Local Open Scope monad_scope.
Local Open Scope string_scope.
Local Open Scope Z_scope.

(** ** Text *)

Definition nl : string := String "010"%char EmptyString.
Definition tab : string := String "009"%char EmptyString.

(** [std::endl] writes a newline (and flushes, which a trace does not see). *)
Definition endl : string := nl.

(** [operator<<] on an [int]: decimal digits with a leading minus sign. *)
Definition show_int (z : Z) : string := NilZero.string_of_int (Z.to_int z).

(** ** Constants of the program *)

Definition DFLT_SERVER_URI : string := "mqtts://localhost:18884".
Definition DFLT_CLIENT_ID : string := "ssl_publish_cpp".

Definition KEY_STORE : string := "client.pem".
Definition TRUST_STORE : string := "test-root-ca.crt".

Definition LWT_TOPIC : string := "events/disconnect".
Definition LWT_PAYLOAD : string := "Last will and testament.".

Definition QOS : Z := 1.

(** [std::chrono::seconds]. *)
Inductive duration : Type := seconds (n : Z).

Definition TIMEOUT : duration := seconds 10.

(** ** Data handed to the client library *)

(** [mqtt::message], built by [mqtt::message(topic, payload, qos, retained)]
    and [mqtt::make_message(...)]. *)
Record message : Type := mk_message {
  topic : string;
  payload : string;
  qos : Z;
  retained : bool
}.

Definition make_message := mk_message.

(** [mqtt::ssl_options].  The error handler is kept as the text it sends
    to [std::cerr] for a given library message. *)
Record ssl_options : Type := mk_ssl_options {
  trust_store : string;
  key_store : string;
  error_handler : option (string -> string)
}.

(** [mqtt::connect_options], restricted to the fields the program sets. *)
Record connect_options : Type := mk_connect_options {
  user_name : string;
  password : string;
  will : option message;
  ssl : option ssl_options
}.

(** Modelled from the spec: the two option builders of the client library
    (their code is not part of the example).  The spec describes connection
    options as credentials, TLS settings (trust store path, key store path,
    error callback) and a last-will message, "constructed via a builder
    pattern and passed once to connect": a builder starts from empty
    options, each setter stores its argument in the field it names, and
    [finalize] returns the options built. *)
Module ssl_options_builder.
Definition new : ssl_options := mk_ssl_options "" "" None.
Definition set_trust_store (path : string) (o : ssl_options) : ssl_options :=
  mk_ssl_options path (key_store o) (error_handler o).
Definition set_key_store (path : string) (o : ssl_options) : ssl_options :=
  mk_ssl_options (trust_store o) path (error_handler o).
Definition set_error_handler (h : string -> string) (o : ssl_options)
  : ssl_options :=
  mk_ssl_options (trust_store o) (key_store o) (Some h).
Definition finalize (o : ssl_options) : ssl_options := o.
End ssl_options_builder.

Module connect_options_builder.
Definition new : connect_options := mk_connect_options "" "" None None.
Definition set_user_name (s : string) (o : connect_options) : connect_options :=
  mk_connect_options s (password o) (will o) (ssl o).
Definition set_password (s : string) (o : connect_options) : connect_options :=
  mk_connect_options (user_name o) s (will o) (ssl o).
Definition set_will (m : message) (o : connect_options) : connect_options :=
  mk_connect_options (user_name o) (password o) (Some m) (ssl o).
Definition set_ssl (s : ssl_options) (o : connect_options) : connect_options :=
  mk_connect_options (user_name o) (password o) (will o) (Some s).
Definition finalize (o : connect_options) : connect_options := o.
End connect_options_builder.

(** Method chaining: [b |> f |> g] is [b.f(..).g(..)]. *)
Notation "x |> f" := (f x) (at level 45, left associativity, only parsing).

(** A completion token ([mqtt::token], [mqtt::delivery_token]); the only
    thing the example reads from one is its message id. *)
Record token : Type := mk_token { get_message_id : Z }.

(** A [std::shared_ptr] to a token, which may be null. *)
Definition delivery_token_ptr : Type := option token.

(** ** Exceptions and outcomes of library calls *)

(** What a call may throw: an [mqtt::exception] (with its [what()] text),
    or anything that [catch (const mqtt::exception&)] does not match. *)
Inductive thrown : Type :=
| mqtt_exception (what : string)
| other_exception.

Inductive outcome (A : Type) : Type :=
| returns (a : A)
| throws (e : thrown).
Arguments returns {A} a.
Arguments throws {A} e.

(** ** The world of one run

    One field per place where [main] leaves the file.  [ifstream_good p]
    is the truth value of the stream opened on [p]; the source uses it as
    "the file exists".  Tokens returned by the library are non-null.

    Modelled from the spec: the waits of a completion token, whose code
    belongs to the client library.  A token "supports blocking wait with
    or without timeout"; a blocking wait "surfaces failure as a propagated
    error"; with a timeout "the operation is abandoned (not necessarily
    cancelled) if the broker does not acknowledge within the timeout
    window", and the wait returns "regardless of whether the publish wait
    timed out".  So [wait] returns or throws, and [wait_for] returns
    [true] when the operation completed in time, returns [false] when the
    timeout expired, or throws when the operation failed. *)
Record world : Type := mk_world {
  ifstream_good : string -> bool;
  async_client_new : string -> string -> outcome unit;
  client_set_callback : outcome unit;
  client_connect : connect_options -> outcome token;
  conntok_wait : token -> outcome unit;
  client_publish : message -> outcome token;
  pubtok_wait_for : token -> duration -> outcome bool;
  client_disconnect : outcome token;
  disctok_wait : token -> outcome unit
}.

(** ** Traces

    What the main thread does, in order: console writes, library calls
    with their outcome, and [Caught] when the [catch] clause is entered.
    Destructors and the callbacks that the library runs on its own thread
    are not part of the trace. *)

Inductive event : Type :=
| Cout (text : string)
| Cerr (text : string)
| Ifstream (path : string) (good : bool)
| AsyncClient (serverURI clientID : string) (o : outcome unit)
| SetCallback (o : outcome unit)
| Connect (opts : connect_options) (o : outcome token)
| ConnWait (tok : token) (o : outcome unit)
| Publish (msg : message) (o : outcome token)
| PubWaitFor (tok : token) (d : duration) (o : outcome bool)
| Disconnect (o : outcome token)
| DiscWait (tok : token) (o : outcome unit)
| Caught (what : string).

Definition trace : Type := list event.

(** ** The monad of [main]: reader of the world, writer of the trace,
    exceptions *)

Definition M (A : Type) : Type := world -> outcome A * trace.

Definition M_ret {A} (a : A) : M A := fun _ => (returns a, []).

Definition M_bind {A B} (m : M A) (f : A -> M B) : M B := fun w =>
  match m w with
  | (returns a, t) => let (r, t') := f a w in (r, (t ++ t')%list)
  | (throws e, t) => (throws e, t)
  end.

#[export] Instance Monad_M : Monad M :=
  {| ret := @M_ret; bind := @M_bind |}.

(** A console write. *)
Definition emit (e : event) : M unit := fun _ => (returns tt, [e]).
Definition cout (s : string) : M unit := emit (Cout s).
Definition cerr (s : string) : M unit := emit (Cerr s).

(** A library call: ask the world, log the call with its outcome, and
    return or throw accordingly. *)
Definition call {A} (ask : world -> outcome A) (log : outcome A -> event) : M A :=
  fun w => (ask w, [log (ask w)]).

(** [try { body } catch (const mqtt::exception& exc) { handler exc.what() }]:
    only an [mqtt::exception] enters the handler, anything else goes on
    unwinding. *)
Definition try_catch {A} (body : M A) (handler : string -> M A) : M A := fun w =>
  match body w with
  | (throws (mqtt_exception what), t) =>
      let (r, t') := handler what w in (r, (t ++ Caught what :: t')%list)
  | r => r
  end.

(** The library calls of the example. *)
Definition ifstream (path : string) : M bool :=
  fun w => (returns (ifstream_good w path), [Ifstream path (ifstream_good w path)]).
Definition async_client (uri id : string) : M unit :=
  call (fun w => async_client_new w uri id) (AsyncClient uri id).
Definition set_callback : M unit :=
  call client_set_callback SetCallback.
Definition connect (opts : connect_options) : M token :=
  call (fun w => client_connect w opts) (Connect opts).
Definition wait_connect (tok : token) : M unit :=
  call (fun w => conntok_wait w tok) (ConnWait tok).
Definition publish (msg : message) : M token :=
  call (fun w => client_publish w msg) (Publish msg).
Definition wait_for (tok : token) (d : duration) : M bool :=
  call (fun w => pubtok_wait_for w tok d) (PubWaitFor tok d).
Definition disconnect : M token :=
  call client_disconnect Disconnect.
Definition wait_disconnect (tok : token) : M unit :=
  call (fun w => disctok_wait w tok) (DiscWait tok).

(** ** The callback class *)

Module callback.

(** [connection_lost]: the lines written to [std::cout]. *)
Definition connection_lost (cause : string) : trace :=
  Cout (nl ++ "Connection lost" ++ endl) ::
  (if negb (String.eqb cause "")
   then [Cout (tab ++ "cause: " ++ cause ++ endl)]
   else []).

(** Dereferencing a shared pointer is only defined when it is not null. *)
Inductive fault : Type := null_dereference.

Definition arrow {A} (p : delivery_token_ptr) (method : token -> A) : fault + A :=
  match p with
  | Some t => inr (method t)
  | None => inl null_dereference
  end.

(** [operator bool] of the pointer. *)
Definition non_null (p : delivery_token_ptr) : bool :=
  match p with Some _ => true | None => false end.

(** [delivery_complete]: the conditional operator evaluates only the
    selected operand. *)
Definition delivery_complete (tok : delivery_token_ptr) : fault + trace :=
  id <- (if non_null tok then arrow tok get_message_id else ret (-1)) ;;
  ret [Cout (tab ++ "Delivery complete for token: " ++ show_int id ++ endl)].

End callback.

(** ** [main] *)

Definition dquote : string := String "034"%char EmptyString.

(** The lambda given to [error_handler]: the line it writes to [std::cerr]. *)
Definition ssl_error_handler (msg : string) : string :=
  "SSL Error: " ++ msg ++ endl.

(** The body of the [try] block.  [None] means that control leaves the
    block through its end, [Some c] that it executed [return c]. *)
Definition try_block (connopts : connect_options) : M (option Z) :=
  (* Connect using SSL/TLS *)
  cout (nl ++ "Connecting..." ++ endl) ;;
  conntok <- connect connopts ;;
  cout ("Waiting for the connection..." ++ endl) ;;
  wait_connect conntok ;;
  cout ("  ...OK" ++ endl) ;;
  (* Send a message *)
  cout (nl ++ "Sending message..." ++ endl) ;;
  let msg := make_message "hello" "Hello secure C++ world!" QOS false in
  pubtok <- publish msg ;;
  _ <- wait_for pubtok TIMEOUT ;;
  cout ("  ...OK" ++ endl) ;;
  (* Disconnect *)
  cout (nl ++ "Disconnecting..." ++ endl) ;;
  disctok <- disconnect ;;
  wait_disconnect disctok ;;
  cout ("  ...OK" ++ endl) ;;
  ret None.

(** The [catch (const mqtt::exception& exc)] clause. *)
Definition catch_clause (what : string) : M (option Z) :=
  cerr (what ++ endl) ;;
  ret (Some 1).

(** [int main(int argc, char* argv[])], with [argc] the length of [argv]. *)
Definition main (argv : list string) : M Z :=
  let argc := Z.of_nat (length argv) in
  let serverURI := if 1 <? argc then nth 1 argv "" else DFLT_SERVER_URI in
  let clientID := if 2 <? argc then nth 2 argv "" else DFLT_CLIENT_ID in
  tstore <- ifstream TRUST_STORE ;;
  if negb tstore then
    cerr ("The trust store file does not exist: " ++ TRUST_STORE ++ endl) ;;
    cerr ("  Get a copy from " ++ dquote ++ "paho.mqtt.c/test/ssl/test-root-ca.crt"
          ++ dquote ++ endl) ;;
    ret 1
  else
  kstore <- ifstream KEY_STORE ;;
  if negb kstore then
    cerr ("The key store file does not exist: " ++ KEY_STORE ++ endl) ;;
    cerr ("  Get a copy from " ++ dquote ++ "paho.mqtt.c/test/ssl/client.pem"
          ++ dquote ++ endl) ;;
    ret 1
  else
  cout ("Initializing for server '" ++ serverURI ++ "'..." ++ endl) ;;
  async_client serverURI clientID ;;
  set_callback ;;
  (* Build the connect options, including SSL and a LWT message. *)
  let sslopts :=
    ssl_options_builder.new
      |> ssl_options_builder.set_trust_store TRUST_STORE
      |> ssl_options_builder.set_key_store KEY_STORE
      |> ssl_options_builder.set_error_handler ssl_error_handler
      |> ssl_options_builder.finalize in
  let willmsg := mk_message LWT_TOPIC LWT_PAYLOAD QOS true in
  let connopts :=
    connect_options_builder.new
      |> connect_options_builder.set_user_name "testuser"
      |> connect_options_builder.set_password "testpassword"
      |> connect_options_builder.set_will willmsg
      |> connect_options_builder.set_ssl sslopts
      |> connect_options_builder.finalize in
  cout ("  ...OK" ++ endl) ;;
  r <- try_catch (try_block connopts) catch_clause ;;
  match r with
  | Some status => ret status
  | None => ret 0
  end.

(** ** The process *)

(** How the process ends: [main] returns a status, or an exception leaves
    [main] and [std::terminate] aborts the process. *)
Inductive termination : Type :=
| Exit (status : Z)
| Terminate.

Definition run (w : world) (argv : list string) : termination * trace :=
  match main argv w with
  | (returns status, t) => (Exit status, t)
  | (throws _, t) => (Terminate, t)
  end.

Definition exit_of (w : world) (argv : list string) : termination := fst (run w argv).
Definition trace_of (w : world) (argv : list string) : trace := snd (run w argv).

(** A world in which every file opens and every call returns. *)
Definition calm : world := {|
  ifstream_good := fun _ => true;
  async_client_new := fun _ _ => returns tt;
  client_set_callback := returns tt;
  client_connect := fun _ => returns (mk_token 0);
  conntok_wait := fun _ => returns tt;
  client_publish := fun _ => returns (mk_token 1);
  pubtok_wait_for := fun _ _ => returns true;
  client_disconnect := returns (mk_token 0);
  disctok_wait := fun _ => returns tt
|}.


(** ** Observations on traces *)

Definition is_publish (e : event) : bool :=
  match e with Publish _ _ => true | _ => false end.

Definition is_disconnect (e : event) : bool :=
  match e with Disconnect _ => true | _ => false end.

Definition is_caught (e : event) : bool :=
  match e with Caught _ => true | _ => false end.

(** The operations invoked on (or creating) the client and its tokens. *)
Definition is_client_op (e : event) : bool :=
  match e with
  | AsyncClient _ _ _ | SetCallback _ | Connect _ _ | ConnWait _ _
  | Publish _ _ | PubWaitFor _ _ _ | Disconnect _ | DiscWait _ _ => true
  | Cout _ | Cerr _ | Ifstream _ _ | Caught _ => false
  end.

Definition count (p : event -> bool) (t : trace) : nat := length (filter p t).

Definition connect_returned (e : event) : bool :=
  match e with Connect _ (returns _) => true | _ => false end.

Definition connwait_returned (e : event) : bool :=
  match e with ConnWait _ (returns _) => true | _ => false end.

Definition publish_returned (e : event) : bool :=
  match e with Publish _ (returns _) => true | _ => false end.

Definition pubwait_returned (e : event) : bool :=
  match e with PubWaitFor _ _ (returns _) => true | _ => false end.

Definition disconnect_returned (e : event) : bool :=
  match e with Disconnect (returns _) => true | _ => false end.

Definition discwait_returned (e : event) : bool :=
  match e with DiscWait _ (returns _) => true | _ => false end.

(** The connect operation succeeded: [client.connect] returned a token and
    the wait on that token returned. *)
Definition connect_succeeded (t : trace) : bool :=
  existsb connect_returned t && existsb connwait_returned t.

(** [client.connect], or the wait on its token, threw an [mqtt::exception]. *)
Definition connect_threw (e : event) : bool :=
  match e with
  | Connect _ (throws (mqtt_exception _)) => true
  | ConnWait _ (throws (mqtt_exception _)) => true
  | _ => false
  end.

(** [wait_for] gave up after the timeout: it returned [false]. *)
Definition pubwait_timed_out (e : event) : bool :=
  match e with PubWaitFor _ _ (returns false) => true | _ => false end.

(** Each of the three operations and each wait returned. *)
Definition sequence_completed (t : trace) : bool :=
  existsb connect_returned t && existsb connwait_returned t &&
  existsb publish_returned t && existsb pubwait_returned t &&
  existsb disconnect_returned t && existsb discwait_returned t.

(** The [catch] clause was entered. *)
Definition exception_caught (t : trace) : bool := existsb is_caught t.

(** A protocol failure: one of the six calls of the [try] block (connect,
    publish, disconnect and their waits) threw an [mqtt::exception]. *)
Definition protocol_failure (e : event) : bool :=
  match e with
  | Connect _ (throws (mqtt_exception _))
  | ConnWait _ (throws (mqtt_exception _))
  | Publish _ (throws (mqtt_exception _))
  | PubWaitFor _ _ (throws (mqtt_exception _))
  | Disconnect (throws (mqtt_exception _))
  | DiscWait _ (throws (mqtt_exception _)) => true
  | _ => false
  end.

(** The first event of a trace that satisfies [p], with what comes before
    and after it. *)
Fixpoint cut (p : event -> bool) (t : trace) : option (trace * event * trace) :=
  match t with
  | [] => None
  | e :: t' =>
      if p e then Some ([], e, t')
      else match cut p t' with
           | Some (pre, x, post) => Some (e :: pre, x, post)
           | None => None
           end
  end.

(** What a failed wait does: when [wait_for] throws an [mqtt::exception],
    the [catch] clause is entered, the program exits with status 1 and
    disconnect is never called. *)
Definition surfaces_as_wait_failure (w : world) (argv : list string) : Prop :=
  exit_of w argv = Exit 1 /\
  exception_caught (trace_of w argv) = true /\
  count is_disconnect (trace_of w argv) = 0%nat.

(** C7 as the spec words it: a timed-out publish wait takes the path of a
    failed wait. *)
Definition timeout_propagates (w : world) (argv : list string) : Prop :=
  existsb pubwait_timed_out (trace_of w argv) = true ->
  surfaces_as_wait_failure w argv.

(** ** Sample worlds *)

Definition sample_argv : list string := ["ssl_publish"; "mqtts://broker:8883"].

(** The trust store cannot be opened. *)
Definition no_trust_store : world := {|
  ifstream_good := fun path => negb (String.eqb path TRUST_STORE);
  async_client_new := async_client_new calm;
  client_set_callback := client_set_callback calm;
  client_connect := client_connect calm;
  conntok_wait := conntok_wait calm;
  client_publish := client_publish calm;
  pubtok_wait_for := pubtok_wait_for calm;
  client_disconnect := client_disconnect calm;
  disctok_wait := disctok_wait calm
|}.

(** Only the key store cannot be opened. *)
Definition no_key_store : world := {|
  ifstream_good := fun path => negb (String.eqb path KEY_STORE);
  async_client_new := async_client_new calm;
  client_set_callback := client_set_callback calm;
  client_connect := client_connect calm;
  conntok_wait := conntok_wait calm;
  client_publish := client_publish calm;
  pubtok_wait_for := pubtok_wait_for calm;
  client_disconnect := client_disconnect calm;
  disctok_wait := disctok_wait calm
|}.

(** The broker refuses the connection: the wait on the connect token throws. *)
Definition refused : world := {|
  ifstream_good := ifstream_good calm;
  async_client_new := async_client_new calm;
  client_set_callback := client_set_callback calm;
  client_connect := client_connect calm;
  conntok_wait := fun _ => throws (mqtt_exception "MQTT error [5]: Not authorized");
  client_publish := client_publish calm;
  pubtok_wait_for := pubtok_wait_for calm;
  client_disconnect := client_disconnect calm;
  disctok_wait := disctok_wait calm
|}.

(** The broker never acknowledges the publish: [wait_for] times out. *)
Definition slow : world := {|
  ifstream_good := ifstream_good calm;
  async_client_new := async_client_new calm;
  client_set_callback := client_set_callback calm;
  client_connect := client_connect calm;
  conntok_wait := conntok_wait calm;
  client_publish := client_publish calm;
  pubtok_wait_for := fun _ _ => returns false;
  client_disconnect := client_disconnect calm;
  disctok_wait := disctok_wait calm
|}.

(** The world [w], except that a publish wait that returns, returns [b]. *)
Definition answer_publish_wait (b : bool) (w : world) : world := {|
  ifstream_good := ifstream_good w;
  async_client_new := async_client_new w;
  client_set_callback := client_set_callback w;
  client_connect := client_connect w;
  conntok_wait := conntok_wait w;
  client_publish := client_publish w;
  pubtok_wait_for := fun tok d =>
    match pubtok_wait_for w tok d with
    | returns _ => returns b
    | throws e => throws e
    end;
  client_disconnect := client_disconnect w;
  disctok_wait := disctok_wait w
|}.

(** Rewrites the result logged for a publish wait that returned. *)
Definition log_publish_wait (b : bool) (e : event) : event :=
  match e with
  | PubWaitFor tok d (returns _) => PubWaitFor tok d (returns b)
  | _ => e
  end.

(** The options [main] builds, written out. *)
Definition sample_connopts : connect_options := {|
  user_name := "testuser";
  password := "testpassword";
  will := Some (mk_message LWT_TOPIC LWT_PAYLOAD 1 true);
  ssl := Some (mk_ssl_options TRUST_STORE KEY_STORE (Some ssl_error_handler))
|}.

(** ** More observations: order of calls, exceptions, console *)

(** The library calls of [main], in the order of the program text. *)
Inductive operation : Type :=
| op_async_client
| op_set_callback
| op_connect
| op_wait_connect
| op_publish
| op_wait_for
| op_disconnect
| op_wait_disconnect.

Definition program_order : list operation :=
  [op_async_client; op_set_callback; op_connect; op_wait_connect;
   op_publish; op_wait_for; op_disconnect; op_wait_disconnect].

Definition operation_of (e : event) : option operation :=
  match e with
  | AsyncClient _ _ _ => Some op_async_client
  | SetCallback _ => Some op_set_callback
  | Connect _ _ => Some op_connect
  | ConnWait _ _ => Some op_wait_connect
  | Publish _ _ => Some op_publish
  | PubWaitFor _ _ _ => Some op_wait_for
  | Disconnect _ => Some op_disconnect
  | DiscWait _ _ => Some op_wait_disconnect
  | Cout _ | Cerr _ | Ifstream _ _ | Caught _ => None
  end.

(** The library calls of a trace, in the order they were made. *)
Fixpoint operations (t : trace) : list operation :=
  match t with
  | [] => []
  | e :: t' =>
      match operation_of e with
      | Some k => k :: operations t'
      | None => operations t'
      end
  end.

(** The exception a library call ended with, if it threw. *)
Definition thrown_by (e : event) : option thrown :=
  match e with
  | AsyncClient _ _ (throws x) | SetCallback (throws x)
  | Connect _ (throws x) | ConnWait _ (throws x)
  | Publish _ (throws x) | PubWaitFor _ _ (throws x)
  | Disconnect (throws x) | DiscWait _ (throws x) => Some x
  | _ => None
  end.

Definition threw (e : event) : bool :=
  match thrown_by e with Some _ => true | None => false end.

(** A call whose exception no handler of [main] takes: any exception of
    the constructor or of [set_callback], which stand before the [try]
    block, and inside the block anything but an [mqtt::exception]. *)
Definition escapes (e : event) : bool :=
  match e with
  | AsyncClient _ _ (throws _) | SetCallback (throws _) => true
  | _ =>
      match thrown_by e with
      | Some other_exception => true
      | _ => false
      end
  end.

(** [client.publish], or the wait on its token, threw an [mqtt::exception]. *)
Definition publish_threw (e : event) : bool :=
  match e with
  | Publish _ (throws (mqtt_exception _)) => true
  | PubWaitFor _ _ (throws (mqtt_exception _)) => true
  | _ => false
  end.

(** [client.disconnect], or the wait on its token, threw an
    [mqtt::exception]. *)
Definition disconnect_threw (e : event) : bool :=
  match e with
  | Disconnect (throws (mqtt_exception _)) => true
  | DiscWait _ (throws (mqtt_exception _)) => true
  | _ => false
  end.

Definition is_cerr (e : event) : bool :=
  match e with Cerr _ => true | _ => false end.

Definition is_cout (e : event) : bool :=
  match e with Cout _ => true | _ => false end.

(** No library call is made after one that threw. *)
Fixpoint quiet_after_throw (t : trace) : bool :=
  match t with
  | [] => true
  | e :: t' =>
      (if threw e then forallb (fun x => negb (is_client_op x)) t' else true)
      && quiet_after_throw t'
  end.

(** The command line as [main] reads it: the second word is the server
    URI, the third the client identifier. *)
Definition server_uri_arg (argv : list string) : option string :=
  match argv with _ :: uri :: _ => Some uri | _ => None end.

Definition client_id_arg (argv : list string) : option string :=
  match argv with _ :: _ :: id :: _ => Some id | _ => None end.

(** The message id that [delivery_complete] shows for a token pointer. *)
Definition shown_id (p : delivery_token_ptr) : Z :=
  match p with
  | Some t => get_message_id t
  | None => -1
  end.

(** More sample worlds. *)

(** The publish is rejected: the wait on its token throws. *)
Definition rejected : world := {|
  ifstream_good := ifstream_good calm;
  async_client_new := async_client_new calm;
  client_set_callback := client_set_callback calm;
  client_connect := client_connect calm;
  conntok_wait := conntok_wait calm;
  client_publish := client_publish calm;
  pubtok_wait_for := fun _ _ => throws (mqtt_exception "MQTT error [-3]: Disconnected");
  client_disconnect := client_disconnect calm;
  disctok_wait := disctok_wait calm
|}.

(** The disconnect call itself throws. *)
Definition stuck : world := {|
  ifstream_good := ifstream_good calm;
  async_client_new := async_client_new calm;
  client_set_callback := client_set_callback calm;
  client_connect := client_connect calm;
  conntok_wait := conntok_wait calm;
  client_publish := client_publish calm;
  pubtok_wait_for := pubtok_wait_for calm;
  client_disconnect := throws (mqtt_exception "MQTT error [-3]: Disconnected");
  disctok_wait := disctok_wait calm
|}.

(** ** Walking through the paths of [main]

    [main] has no loop: a run is decided by the answers of the world, one
    after the other.  [run_paths] unfolds the monad and splits on each
    answer in program order, leaving one goal per path with its trace
    written out (texts stay folded). *)

Ltac run_simpl :=
  cbv beta iota zeta delta
    [run trace_of exit_of main try_block catch_clause
     bind ret Monad_M M_bind M_ret emit cout cerr call try_catch
     ifstream async_client set_callback connect wait_connect publish
     wait_for disconnect wait_disconnect fst snd app negb].

Ltac world_case :=
  match goal with
  | |- context [match ?x with returns _ => _ | throws _ => _ end] =>
      lazymatch x with
      | match _ with returns _ => _ | throws _ => _ end => fail
      | _ => destruct x eqn:?
      end
  | |- context [match ?x with mqtt_exception _ => _ | other_exception => _ end] =>
      destruct x eqn:?
  | |- context [if ?x then _ else _] =>
      lazymatch x with
      | context [Z.ltb] => fail
      | if _ then _ else _ => fail
      | _ => destruct x eqn:?
      end
  end.

Ltac run_paths := run_simpl; repeat (world_case; run_simpl).

Ltac in_trace H :=
  cbn [In] in H;
  repeat match type of H with
  | _ \/ _ => destruct H as [H | H]
  end;
  try discriminate H; try contradiction.

Ltac find_event :=
  cbv [trace_of run snd]; simpl;
  repeat first [left; reflexivity | right].

(** ** A run without incident *)

Example calm_run :
  exit_of calm sample_argv = Exit 0 /\
  sequence_completed (trace_of calm sample_argv) = true /\
  map is_client_op (trace_of calm sample_argv) =
    [false; false; false; true; true; false; false; true; false; true;
     false; false; true; true; false; false; true; true; false].
Proof. repeat split. Qed.

(** ** The connect options *)

(** C2.  In every run that reaches the connect call, the options passed
    to it carry the last-will message with topic [events/disconnect],
    payload [Last will and testament.], QoS 1 and the retain flag set. *)
Theorem connect_registers_will (w : world) (argv : list string)
    (opts : connect_options) (o : outcome token) :
  In (Connect opts o) (trace_of w argv) ->
  will opts = Some {| topic := "events/disconnect";
                      payload := "Last will and testament.";
                      qos := 1;
                      retained := true |}.
Proof.
  run_paths; intros H; in_trace H;
    injection H as <- _; reflexivity.
Qed.

Lemma connect_registers_will_witness :
  In (Connect sample_connopts (returns (mk_token 0))) (trace_of calm sample_argv) /\
  will sample_connopts = Some (mk_message "events/disconnect"
                                 "Last will and testament." 1 true).
Proof.
  assert (H : In (Connect sample_connopts (returns (mk_token 0)))
                (trace_of calm sample_argv)).
  { cbv [trace_of run snd]. simpl. do 7 right. left. reflexivity. }
  split; [exact H | exact (connect_registers_will calm sample_argv _ _ H)].
Defined.

(** C9.  In every run that reaches the connect call, whatever the command
    line, the options passed to it carry the user name [testuser] and the
    password [testpassword]. *)
Theorem connect_credentials (w : world) (argv : list string)
    (opts : connect_options) (o : outcome token) :
  In (Connect opts o) (trace_of w argv) ->
  user_name opts = "testuser" /\ password opts = "testpassword".
Proof.
  run_paths; intros H; in_trace H;
    injection H as <- _; split; reflexivity.
Qed.

Lemma connect_credentials_witness :
  In (Connect sample_connopts (returns (mk_token 0)))
     (trace_of calm ["ssl_publish"; "mqtts://broker:8883"; "someone"]) /\
  user_name sample_connopts = "testuser" /\
  password sample_connopts = "testpassword".
Proof.
  assert (H : In (Connect sample_connopts (returns (mk_token 0)))
                (trace_of calm ["ssl_publish"; "mqtts://broker:8883"; "someone"])).
  { cbv [trace_of run snd]. simpl. do 7 right. left. reflexivity. }
  split; [exact H | exact (connect_credentials calm _ _ _ H)].
Defined.

(** ** The certificate files *)

(** C4.  When the trust store [test-root-ca.crt] cannot be opened, the
    program exits with status 1 and the trace holds no client operation at
    all: no client is created and connect is never called. *)
Theorem missing_trust_store (w : world) (argv : list string) :
  ifstream_good w TRUST_STORE = false ->
  exit_of w argv = Exit 1 /\
  forallb (fun e => negb (is_client_op e)) (trace_of w argv) = true.
Proof.
  intros Ht. run_simpl. rewrite Ht. run_simpl. split; reflexivity.
Qed.

Lemma missing_trust_store_witness :
  exit_of no_trust_store sample_argv = Exit 1 /\
  forallb (fun e => negb (is_client_op e)) (trace_of no_trust_store sample_argv) = true.
Proof.
  apply (missing_trust_store no_trust_store sample_argv). reflexivity.
Defined.

(** C5.  When the trust store opens but the key store [client.pem] does
    not, the program exits with status 1 and the trace holds no client
    operation: connect is never called. *)
Theorem missing_key_store (w : world) (argv : list string) :
  ifstream_good w TRUST_STORE = true ->
  ifstream_good w KEY_STORE = false ->
  exit_of w argv = Exit 1 /\
  forallb (fun e => negb (is_client_op e)) (trace_of w argv) = true.
Proof.
  intros Ht Hk. run_simpl. rewrite Ht. run_simpl. rewrite Hk. run_simpl.
  split; reflexivity.
Qed.

Lemma missing_key_store_witness :
  exit_of no_key_store sample_argv = Exit 1 /\
  forallb (fun e => negb (is_client_op e)) (trace_of no_key_store sample_argv) = true.
Proof.
  apply (missing_key_store no_key_store sample_argv); reflexivity.
Defined.

(** ** Connect, then publish *)

(** C1.  When both files open and the connect operation succeeds, the
    trace holds exactly one publish call, and its message has topic
    [hello], payload [Hello secure C++ world!], QoS 1 and no retain flag. *)
Theorem publish_once (w : world) (argv : list string) :
  ifstream_good w TRUST_STORE = true ->
  ifstream_good w KEY_STORE = true ->
  connect_succeeded (trace_of w argv) = true ->
  exists o,
    filter is_publish (trace_of w argv) =
    [Publish {| topic := "hello";
                payload := "Hello secure C++ world!";
                qos := 1;
                retained := false |} o].
Proof.
  intros Ht Hk. run_paths; try congruence;
    cbv [connect_succeeded]; cbn [existsb connect_returned connwait_returned
                                   orb andb];
    intros H; try discriminate H;
    cbn [filter is_publish]; eexists; reflexivity.
Qed.

Lemma publish_once_witness :
  exists o,
    filter is_publish (trace_of calm sample_argv) =
    [Publish (mk_message "hello" "Hello secure C++ world!" 1 false) o].
Proof.
  apply (publish_once calm sample_argv); reflexivity.
Defined.

(** C3.  When [client.connect], or the wait on its token, throws an
    [mqtt::exception], the program exits with status 1 and the trace holds
    neither a publish nor a disconnect call. *)
Theorem connect_failure (w : world) (argv : list string) :
  existsb connect_threw (trace_of w argv) = true ->
  exit_of w argv = Exit 1 /\
  count is_publish (trace_of w argv) = 0%nat /\
  count is_disconnect (trace_of w argv) = 0%nat.
Proof.
  run_paths; cbn [existsb connect_threw orb];
    intros H; try discriminate H; repeat split; reflexivity.
Qed.

Lemma connect_failure_witness :
  exit_of refused sample_argv = Exit 1 /\
  count is_publish (trace_of refused sample_argv) = 0%nat /\
  count is_disconnect (trace_of refused sample_argv) = 0%nat.
Proof.
  apply (connect_failure refused sample_argv). reflexivity.
Defined.

(** ** The delivery callback *)

(** C10.  [delivery_complete] never dereferences a null pointer: for every
    argument it completes with one line of output, which shows [-1] as the
    message id when the token pointer is null and the token's message id
    otherwise. *)
Theorem delivery_complete_safe :
  (forall tok, callback.delivery_complete tok <> inl callback.null_dereference) /\
  callback.delivery_complete None =
    inr [Cout (tab ++ "Delivery complete for token: -1" ++ endl)] /\
  (forall t, callback.delivery_complete (Some t) =
    inr [Cout (tab ++ "Delivery complete for token: "
                   ++ show_int (get_message_id t) ++ endl)]).
Proof.
  split; [| split].
  - intros [t |]; discriminate.
  - reflexivity.
  - intros t. reflexivity.
Qed.

(** ** Publish, then disconnect *)

Lemma cut_app (p : event -> bool) (t pre post : trace) (x : event) :
  cut p t = Some (pre, x, post) -> t = (pre ++ x :: post)%list.
Proof.
  revert pre. induction t as [| e t IH]; intros pre; cbn [cut].
  - discriminate.
  - destruct (p e).
    + intros [= <- <- <-]. reflexivity.
    + destruct (cut p t) as [[[pre' x'] post'] |]; [| discriminate].
      intros [= <- <- <-]. cbn [app]. f_equal. apply IH. reflexivity.
Qed.

(** C6.  When the wait on the publish token returns, completed or timed
    out after the 10-second bound, the trace holds exactly one disconnect
    call, and that call comes after the wait. *)
Theorem disconnect_after_publish_wait (w : world) (argv : list string)
    (tok : token) (d : duration) (b : bool) :
  In (PubWaitFor tok d (returns b)) (trace_of w argv) ->
  d = seconds 10 /\
  count is_disconnect (trace_of w argv) = 1%nat /\
  exists pre post o,
    trace_of w argv = (pre ++ PubWaitFor tok d (returns b) :: post)%list /\
    count is_disconnect pre = 0%nat /\
    filter is_disconnect post = [Disconnect o].
Proof.
  run_paths; intros H; in_trace H; injection H as <- <- <-;
    (split; [reflexivity |]); (split; [reflexivity |]);
    match goal with
    | |- exists pre post o, ?t = _ /\ _ =>
        destruct (cut pubwait_returned t) as [[[pre x] post] |] eqn:C;
          [ | discriminate C];
          pose proof (cut_app _ _ _ _ _ C) as E;
          cbn [cut pubwait_returned] in C; injection C as <- <- <-;
          match type of E with
          | _ = (?before ++ _ :: ?after)%list => exists before, after
          end
    end;
    eexists; (split; [exact E | split; reflexivity]).
Qed.

Lemma disconnect_after_publish_wait_witness :
  seconds 10 = seconds 10 /\
  count is_disconnect (trace_of slow sample_argv) = 1%nat /\
  exists pre post o,
    trace_of slow sample_argv =
      (pre ++ PubWaitFor (mk_token 1) (seconds 10) (returns false) :: post)%list /\
    count is_disconnect pre = 0%nat /\
    filter is_disconnect post = [Disconnect o].
Proof.
  apply (disconnect_after_publish_wait slow sample_argv).
  cbv [trace_of run snd]. simpl. do 13 right. left. reflexivity.
Defined.

(** ** A publish wait that times out *)

Lemma wait_failure_surfaces (w : world) (argv : list string)
    (tok : token) (d : duration) (what : string) :
  In (PubWaitFor tok d (throws (mqtt_exception what))) (trace_of w argv) ->
  surfaces_as_wait_failure w argv.
Proof.
  unfold surfaces_as_wait_failure.
  run_paths; intros H; in_trace H; repeat split; reflexivity.
Qed.

Example slow_run :
  exit_of slow sample_argv = Exit 0 /\
  exception_caught (trace_of slow sample_argv) = false /\
  count is_disconnect (trace_of slow sample_argv) = 1%nat.
Proof. repeat split. Qed.

(** C7, refuted.  In the world [slow] the publish wait times out, yet the
    program goes on to disconnect and exits with status 0; the [catch]
    clause is never entered. *)
Lemma timeout_propagates_fails : ~ timeout_propagates slow sample_argv.
Proof.
  intros H. destruct (H eq_refl) as [E _]. discriminate E.
Qed.

(** C7, amended.  A publish wait that times out is not handled at all: the
    value of [wait_for] is discarded.  The program writes its [...OK] line
    and calls disconnect next, and the run has the exit status and, up to
    the logged result of the wait, the trace of the same run with a
    completed wait. *)
Theorem timeout_is_ignored (w : world) (argv : list string) :
  existsb pubwait_timed_out (trace_of w argv) = true ->
  exit_of w argv = exit_of (answer_publish_wait true w) argv /\
  map (log_publish_wait true) (trace_of w argv) =
    trace_of (answer_publish_wait true w) argv /\
  exists pre tok o post,
    trace_of w argv =
      (pre ++ PubWaitFor tok TIMEOUT (returns false)
           :: Cout ("  ...OK" ++ endl)
           :: Cout (nl ++ "Disconnecting..." ++ endl)
           :: Disconnect o :: post)%list.
Proof.
  destruct w. run_simpl.
  cbv beta iota delta
    [answer_publish_wait ifstream_good async_client_new client_set_callback
     client_connect conntok_wait client_publish pubtok_wait_for
     client_disconnect disctok_wait].
  run_paths;
    cbn [existsb pubwait_timed_out orb]; intros H; try discriminate H;
    match goal with
    | b : bool |- _ => destruct b; [discriminate H |]
    end;
    (split; [reflexivity |]); (split; [reflexivity |]);
    match goal with
    | |- exists pre tok o post, ?t = _ =>
        destruct (cut pubwait_timed_out t) as [[[pre x] post] |] eqn:C;
          [ | discriminate C];
          pose proof (cut_app _ _ _ _ _ C) as E;
          cbn [cut pubwait_timed_out] in C; injection C as <- <- <-;
          match type of E with
          | _ = (?before ++ _ :: ?after)%list => exists before
          end
    end;
    do 3 eexists; exact E.
Qed.

Lemma timeout_is_ignored_witness :
  exit_of slow sample_argv = exit_of (answer_publish_wait true slow) sample_argv /\
  map (log_publish_wait true) (trace_of slow sample_argv) =
    trace_of (answer_publish_wait true slow) sample_argv /\
  exists pre tok o post,
    trace_of slow sample_argv =
      (pre ++ PubWaitFor tok TIMEOUT (returns false)
           :: Cout ("  ...OK" ++ endl)
           :: Cout (nl ++ "Disconnecting..." ++ endl)
           :: Disconnect o :: post)%list.
Proof.
  apply (timeout_is_ignored slow sample_argv). reflexivity.
Defined.

(** ** Exit status *)

(** C8.  The exit status is 0 exactly when connect, publish, disconnect
    and their waits all returned, with no [mqtt::exception] thrown on the
    way; it is 1 exactly when the trust store or the key store cannot be
    opened or one of the calls of the [try] block threw an
    [mqtt::exception].  Such an exception is always caught: the [catch]
    clause is entered exactly in the runs where one was thrown. *)
Theorem exit_status (w : world) (argv : list string) :
  (exit_of w argv = Exit 0 <->
   sequence_completed (trace_of w argv) = true /\
   existsb protocol_failure (trace_of w argv) = false) /\
  (exit_of w argv = Exit 1 <->
   ifstream_good w TRUST_STORE = false \/
   ifstream_good w KEY_STORE = false \/
   existsb protocol_failure (trace_of w argv) = true) /\
  exception_caught (trace_of w argv) =
    existsb protocol_failure (trace_of w argv).
Proof.
  run_paths;
    cbv [sequence_completed exception_caught];
    cbn [existsb is_caught protocol_failure connect_returned
         connwait_returned publish_returned pubwait_returned
         disconnect_returned discwait_returned orb andb];
    repeat split; intros;
    repeat match goal with
    | H : _ /\ _ |- _ => destruct H
    | H : _ \/ _ |- _ => destruct H
    end;
    try congruence; auto.
Qed.

Lemma exit_status_witness :
  exit_of refused sample_argv = Exit 1 /\
  exit_of calm sample_argv = Exit 0 /\
  exception_caught (trace_of refused sample_argv) = true.
Proof.
  split; [| split].
  - apply (proj2 (proj1 (proj2 (exit_status refused sample_argv)))).
    right. right. reflexivity.
  - apply (proj2 (proj1 (exit_status calm sample_argv))).
    split; reflexivity.
  - rewrite (proj2 (proj2 (exit_status refused sample_argv))). reflexivity.
Defined.

(** ** The order of the library calls *)

(** X1.  In every run the library calls are made in the order of the
    program text, each at most once: the calls of a trace are an initial
    part of constructor, set_callback, connect, wait, publish, wait_for,
    disconnect, wait. *)
Theorem calls_in_program_order (w : world) (argv : list string) :
  exists n, operations (trace_of w argv) = firstn n program_order.
Proof.
  run_paths; cbn [operations operation_of];
    first [ exists 0%nat; reflexivity | exists 1%nat; reflexivity
          | exists 2%nat; reflexivity | exists 3%nat; reflexivity
          | exists 4%nat; reflexivity | exists 5%nat; reflexivity
          | exists 6%nat; reflexivity | exists 7%nat; reflexivity
          | exists 8%nat; reflexivity ].
Qed.

Lemma quiet_after_throw_spec (t : trace) :
  quiet_after_throw t = true ->
  forall pre e post,
    t = (pre ++ e :: post)%list -> threw e = true ->
    forallb (fun x => negb (is_client_op x)) post = true.
Proof.
  induction t as [| x t IH]; intros Q pre e post E T.
  - destruct pre; discriminate E.
  - cbn [quiet_after_throw] in Q. apply andb_prop in Q as [Qx Qt].
    destruct pre as [| y pre]; cbn [app] in E; injection E as -> ->.
    + rewrite T in Qx. exact Qx.
    + exact (IH Qt pre e post eq_refl T).
Qed.

(** X2.  Once a library call has thrown, whatever the exception, [main]
    makes no further library call: there is no retry and no clean-up
    call. *)
Theorem no_call_after_throw (w : world) (argv : list string)
    (pre post : trace) (e : event) :
  trace_of w argv = (pre ++ e :: post)%list ->
  threw e = true ->
  forallb (fun x => negb (is_client_op x)) post = true.
Proof.
  apply quiet_after_throw_spec. run_paths; reflexivity.
Qed.

Lemma no_call_after_throw_witness :
  forallb (fun x => negb (is_client_op x))
    [Caught "MQTT error [5]: Not authorized";
     Cerr ("MQTT error [5]: Not authorized" ++ endl)] = true.
Proof.
  apply (no_call_after_throw refused sample_argv
           (firstn 9 (trace_of refused sample_argv))
           [Caught "MQTT error [5]: Not authorized";
            Cerr ("MQTT error [5]: Not authorized" ++ endl)]
           (ConnWait (mk_token 0)
              (throws (mqtt_exception "MQTT error [5]: Not authorized")))).
  - reflexivity.
  - reflexivity.
Defined.

(** X3.  Each wait is made on the token that the operation before it
    returned: the connect wait on the token of [connect], the publish wait
    (bounded by [TIMEOUT]) on the token of [publish], the disconnect wait
    on the token of [disconnect]. *)
Theorem waits_use_returned_tokens (w : world) (argv : list string) (tok : token) :
  (forall o, In (ConnWait tok o) (trace_of w argv) ->
     exists opts, In (Connect opts (returns tok)) (trace_of w argv)) /\
  (forall d o, In (PubWaitFor tok d o) (trace_of w argv) ->
     d = TIMEOUT /\
     exists msg, In (Publish msg (returns tok)) (trace_of w argv)) /\
  (forall o, In (DiscWait tok o) (trace_of w argv) ->
     In (Disconnect (returns tok)) (trace_of w argv)).
Proof.
  run_paths; (split; [| split]); intros; 
    match goal with H : In _ _ |- _ => in_trace H; injection H as <- end;
    intros; subst;
    repeat match goal with
    | |- _ /\ _ => split; [reflexivity |]
    | |- exists _, _ => eexists
    end;
    cbn [In]; repeat first [left; reflexivity | right].
Qed.

Lemma waits_use_returned_tokens_witness :
  seconds 10 = TIMEOUT /\
  exists msg, In (Publish msg (returns (mk_token 1))) (trace_of slow sample_argv).
Proof.
  apply (proj1 (proj2 (waits_use_returned_tokens slow sample_argv (mk_token 1)))
           (seconds 10) (returns false)).
  find_event.
Defined.

(** ** The command line *)

Lemma argv_1 (argv : list string) (dflt : string) :
  (if 1 <? Z.of_nat (length argv) then nth 1 argv "" else dflt) =
  match server_uri_arg argv with Some uri => uri | None => dflt end.
Proof.
  destruct argv as [| a [| b l]]; try reflexivity.
  cbn [length server_uri_arg nth].
  destruct (Z.ltb_spec 1 (Z.of_nat (S (S (length l))))); [reflexivity | lia].
Qed.

Lemma argv_2 (argv : list string) (dflt : string) :
  (if 2 <? Z.of_nat (length argv) then nth 2 argv "" else dflt) =
  match client_id_arg argv with Some id => id | None => dflt end.
Proof.
  destruct argv as [| a [| b [| c l]]]; try reflexivity.
  cbn [length client_id_arg nth].
  destruct (Z.ltb_spec 2 (Z.of_nat (S (S (S (length l)))))); [reflexivity | lia].
Qed.

(** X4.  The client is constructed with the second word of the command
    line as server URI and the third as client identifier, and with
    [mqtts://localhost:18884] and [ssl_publish_cpp] where the word is
    missing; words after the third are ignored.  The [Initializing] line on
    [std::cout] shows the URI that is used. *)
Theorem client_from_command_line (w : world) (argv : list string)
    (uri id : string) (o : outcome unit) :
  In (AsyncClient uri id o) (trace_of w argv) ->
  uri = match server_uri_arg argv with
        | Some a => a
        | None => "mqtts://localhost:18884"
        end /\
  id = match client_id_arg argv with
       | Some a => a
       | None => "ssl_publish_cpp"
       end /\
  In (Cout ("Initializing for server '" ++ uri ++ "'..." ++ endl))
     (trace_of w argv).
Proof.
  run_paths; intros H; in_trace H; injection H as <- <- <-;
    (split; [apply argv_1 |]); (split; [apply argv_2 |]);
    cbn [In]; auto.
Qed.

Lemma client_from_command_line_witness :
  "mqtts://broker:8883" = "mqtts://broker:8883" /\
  "ssl_publish_cpp" = "ssl_publish_cpp" /\
  In (Cout ("Initializing for server '" ++ "mqtts://broker:8883" ++ "'..." ++ endl))
     (trace_of calm sample_argv).
Proof.
  apply (client_from_command_line calm sample_argv
           "mqtts://broker:8883" "ssl_publish_cpp" (returns tt)).
  find_event.
Defined.

(** ** The certificate files, again *)

(** X5.  The TLS options passed to connect name the very files whose
    opening the run checked: the trust store [test-root-ca.crt] and the key
    store [client.pem], each opened with success earlier in the trace; and
    the error handler installed writes [SSL Error: ] and the message as one
    line. *)
Theorem connect_tls_options (w : world) (argv : list string)
    (opts : connect_options) (o : outcome token) :
  In (Connect opts o) (trace_of w argv) ->
  exists s h,
    ssl opts = Some s /\
    trust_store s = "test-root-ca.crt" /\
    key_store s = "client.pem" /\
    In (Ifstream (trust_store s) true) (trace_of w argv) /\
    In (Ifstream (key_store s) true) (trace_of w argv) /\
    error_handler s = Some h /\
    forall msg, h msg = "SSL Error: " ++ msg ++ nl.
Proof.
  run_paths; intros H; in_trace H; injection H as <- _;
    eexists; eexists; (split; [reflexivity |]);
    repeat (split; [first [reflexivity | cbn [In]; auto] |]);
    intros msg; reflexivity.
Qed.

Lemma connect_tls_options_witness :
  exists s h,
    ssl sample_connopts = Some s /\
    trust_store s = "test-root-ca.crt" /\
    key_store s = "client.pem" /\
    In (Ifstream (trust_store s) true) (trace_of calm sample_argv) /\
    In (Ifstream (key_store s) true) (trace_of calm sample_argv) /\
    error_handler s = Some h /\
    forall msg, h msg = "SSL Error: " ++ msg ++ nl.
Proof.
  apply (connect_tls_options calm sample_argv sample_connopts (returns (mk_token 0))).
  find_event.
Defined.

(** X6.  A library call is made only in a run that began by opening the
    trust store and then the key store, both with success. *)
Theorem files_checked_first (w : world) (argv : list string) (e : event) :
  In e (trace_of w argv) ->
  is_client_op e = true ->
  firstn 2 (trace_of w argv) =
    [Ifstream "test-root-ca.crt" true; Ifstream "client.pem" true].
Proof.
  run_paths; intros H C; try reflexivity;
    in_trace H; subst e; discriminate C.
Qed.

Lemma files_checked_first_witness :
  firstn 2 (trace_of refused sample_argv) =
    [Ifstream "test-root-ca.crt" true; Ifstream "client.pem" true].
Proof.
  apply (files_checked_first refused sample_argv (SetCallback (returns tt))).
  - find_event.
  - reflexivity.
Defined.

(** X7.  When the trust store cannot be opened the run is exactly: the
    failed opening, then two lines on [std::cerr], the first naming
    [test-root-ca.crt].  The key store is not opened, and nothing is
    written to [std::cout]. *)
Theorem missing_trust_store_trace (w : world) (argv : list string) :
  ifstream_good w TRUST_STORE = false ->
  trace_of w argv =
    [Ifstream "test-root-ca.crt" false;
     Cerr ("The trust store file does not exist: test-root-ca.crt" ++ nl);
     Cerr ("  Get a copy from " ++ dquote
           ++ "paho.mqtt.c/test/ssl/test-root-ca.crt" ++ dquote ++ nl)].
Proof.
  intros Ht. run_simpl. rewrite Ht. reflexivity.
Qed.

Lemma missing_trust_store_trace_witness :
  trace_of no_trust_store sample_argv =
    [Ifstream "test-root-ca.crt" false;
     Cerr ("The trust store file does not exist: test-root-ca.crt" ++ nl);
     Cerr ("  Get a copy from " ++ dquote
           ++ "paho.mqtt.c/test/ssl/test-root-ca.crt" ++ dquote ++ nl)].
Proof.
  apply (missing_trust_store_trace no_trust_store sample_argv). reflexivity.
Defined.

(** X8.  When only the key store cannot be opened the run is exactly: the
    two openings, then two lines on [std::cerr], the first naming
    [client.pem].  Nothing is written to [std::cout]. *)
Theorem missing_key_store_trace (w : world) (argv : list string) :
  ifstream_good w TRUST_STORE = true ->
  ifstream_good w KEY_STORE = false ->
  trace_of w argv =
    [Ifstream "test-root-ca.crt" true;
     Ifstream "client.pem" false;
     Cerr ("The key store file does not exist: client.pem" ++ nl);
     Cerr ("  Get a copy from " ++ dquote
           ++ "paho.mqtt.c/test/ssl/client.pem" ++ dquote ++ nl)].
Proof.
  intros Ht Hk. run_simpl. rewrite Ht. run_simpl. rewrite Hk. reflexivity.
Qed.

Lemma missing_key_store_trace_witness :
  trace_of no_key_store sample_argv =
    [Ifstream "test-root-ca.crt" true;
     Ifstream "client.pem" false;
     Cerr ("The key store file does not exist: client.pem" ++ nl);
     Cerr ("  Get a copy from " ++ dquote
           ++ "paho.mqtt.c/test/ssl/client.pem" ++ dquote ++ nl)].
Proof.
  apply (missing_key_store_trace no_key_store sample_argv); reflexivity.
Defined.

(** ** Failures after the connection is up *)

(** X9.  When [client.publish], or the wait on its token, throws an
    [mqtt::exception], the program exits with status 1 without calling
    disconnect, although the connect operation had succeeded. *)
Theorem publish_failure (w : world) (argv : list string) :
  existsb publish_threw (trace_of w argv) = true ->
  exit_of w argv = Exit 1 /\
  connect_succeeded (trace_of w argv) = true /\
  count is_disconnect (trace_of w argv) = 0%nat.
Proof.
  run_paths; cbn [existsb publish_threw orb];
    intros H; try discriminate H; repeat split; reflexivity.
Qed.

Lemma publish_failure_witness :
  exit_of rejected sample_argv = Exit 1 /\
  connect_succeeded (trace_of rejected sample_argv) = true /\
  count is_disconnect (trace_of rejected sample_argv) = 0%nat.
Proof.
  apply (publish_failure rejected sample_argv). reflexivity.
Defined.

(** X10.  When [client.disconnect], or the wait on its token, throws an
    [mqtt::exception], the program exits with status 1, after a run in
    which publish was called once and its wait returned. *)
Theorem disconnect_failure (w : world) (argv : list string) :
  existsb disconnect_threw (trace_of w argv) = true ->
  exit_of w argv = Exit 1 /\
  count is_publish (trace_of w argv) = 1%nat /\
  existsb pubwait_returned (trace_of w argv) = true.
Proof.
  run_paths; cbn [existsb disconnect_threw orb];
    intros H; try discriminate H; repeat split; reflexivity.
Qed.

Lemma disconnect_failure_witness :
  exit_of stuck sample_argv = Exit 1 /\
  count is_publish (trace_of stuck sample_argv) = 1%nat /\
  existsb pubwait_returned (trace_of stuck sample_argv) = true.
Proof.
  apply (disconnect_failure stuck sample_argv). reflexivity.
Defined.

(** X11.  When the [catch] clause is entered, the run ends there: the call
    just before threw the [mqtt::exception] that is caught, its [what()]
    text is written as one line to [std::cerr], nothing follows, and the
    exit status is 1. *)
Theorem caught_exception_is_reported (w : world) (argv : list string)
    (what : string) :
  In (Caught what) (trace_of w argv) ->
  exit_of w argv = Exit 1 /\
  exists pre e,
    trace_of w argv = (pre ++ [e; Caught what; Cerr (what ++ nl)])%list /\
    thrown_by e = Some (mqtt_exception what).
Proof.
  run_paths; intros H; in_trace H; injection H as <-;
    (split; [reflexivity |]);
    match goal with
    | |- exists pre e, ?t = _ /\ _ =>
        let n := eval cbv in (length t - 3)%nat in
        let pre := eval cbv [firstn] in (firstn n t) in
        exists pre; eexists; split; reflexivity
    end.
Qed.

Lemma caught_exception_is_reported_witness :
  exit_of rejected sample_argv = Exit 1 /\
  exists pre e,
    trace_of rejected sample_argv =
      (pre ++ [e; Caught "MQTT error [-3]: Disconnected";
               Cerr ("MQTT error [-3]: Disconnected" ++ nl)])%list /\
    thrown_by e = Some (mqtt_exception "MQTT error [-3]: Disconnected").
Proof.
  apply (caught_exception_is_reported rejected sample_argv). find_event.
Defined.

(** ** How a run can end *)

(** X12.  A run ends in one of three ways: status 0, status 1, or an
    exception that leaves [main].  The last happens exactly when the
    client constructor or [set_callback] threw, which stand before the
    [try] block, or when a call inside the block threw something other
    than an [mqtt::exception]. *)
Theorem uncaught_exceptions (w : world) (argv : list string) :
  (exit_of w argv = Terminate <-> existsb escapes (trace_of w argv) = true) /\
  (forall status, exit_of w argv = Exit status -> status = 0 \/ status = 1).
Proof.
  run_paths; cbn [existsb escapes thrown_by orb];
    (split; [split; intros H; first [reflexivity | discriminate H]
            | intros status H; injection H as <-; auto]) ||
    (split; [split; intros H; first [reflexivity | discriminate H]
            | intros status H; discriminate H]).
Qed.

(** X13.  [main] writes to [std::cerr] exactly in the runs that exit with
    status 1: every exit with status 1 comes with a diagnostic, and a run
    that exits with status 0 or is aborted by an exception has none from
    [main]. *)
Theorem stderr_iff_exit_1 (w : world) (argv : list string) :
  exit_of w argv = Exit 1 <-> existsb is_cerr (trace_of w argv) = true.
Proof.
  run_paths; cbn [existsb is_cerr orb];
    split; intros H; first [reflexivity | discriminate H].
Qed.

(** ** The callbacks *)

Lemma append_char_inj (a : ascii) (s1 s2 : string) :
  s1 ++ String a "" = s2 ++ String a "" -> s1 = s2.
Proof.
  revert s2. induction s1 as [| c s1 IH]; intros [| d s2]; cbn [append].
  - reflexivity.
  - intros [= _ E]. destruct s2; discriminate E.
  - intros [= _ E]. destruct s1; discriminate E.
  - intros [= -> E]. f_equal. exact (IH _ E).
Qed.

Lemma to_int_not_nil (z : Z) : Z.to_int z <> Decimal.Pos Decimal.Nil /\
                               Z.to_int z <> Decimal.Neg Decimal.Nil.
Proof.
  destruct z as [| p | p]; cbn [Z.to_int]; split; try discriminate;
    intros [= E]; exact (DecimalPos.Unsigned.to_uint_nonnil p E).
Qed.

Lemma show_int_inj (x y : Z) : show_int x = show_int y -> x = y.
Proof.
  unfold show_int. intros E. apply DecimalZ.to_int_inj.
  destruct (to_int_not_nil x) as [Px Nx], (to_int_not_nil y) as [Py Ny].
  pose proof (NilZero.isi _ Px Nx) as Ix.
  pose proof (NilZero.isi _ Py Ny) as Iy.
  rewrite E in Ix. congruence.
Qed.

(** X14.  The line written by [delivery_complete] tells the message id and
    nothing else: two token pointers give the same output exactly when they
    show the same id, so tokens with different ids are told apart, while a
    null pointer is logged like a token whose id is -1. *)
Theorem delivery_complete_shows_id (p1 p2 : delivery_token_ptr) :
  callback.delivery_complete p1 = callback.delivery_complete p2 <->
  shown_id p1 = shown_id p2.
Proof.
  assert (F : forall p, callback.delivery_complete p =
            inr [Cout (tab ++ "Delivery complete for token: "
                           ++ show_int (shown_id p) ++ endl)]).
  { intros [t |]; reflexivity. }
  rewrite !F. split.
  - intros E. cbv [tab endl nl] in E. cbn [append] in E.
    injection E as E. apply show_int_inj. exact (append_char_inj _ _ _ E).
  - intros ->. reflexivity.
Qed.

(** X15.  [connection_lost] writes the heading alone when the cause is
    empty, and otherwise the heading and a line with the cause; the cause
    can be read back from the output: different causes give different
    output. *)
Theorem connection_lost_shows_cause (c1 c2 : string) :
  length (callback.connection_lost c1) = (if String.eqb c1 "" then 1 else 2)%nat /\
  (callback.connection_lost c1 = callback.connection_lost c2 -> c1 = c2).
Proof.
  unfold callback.connection_lost.
  destruct (String.eqb_spec c1 ""), (String.eqb_spec c2 "");
    cbn [negb length]; (split; [reflexivity |]);
    intros E; try discriminate E.
  - congruence.
  - cbv [tab endl nl] in E. cbn [append] in E.
    injection E as E. exact (append_char_inj _ _ _ E).
Qed.

Lemma connection_lost_shows_cause_witness :
  length (callback.connection_lost "keepalive timeout") = 2%nat /\
  "keepalive timeout" = "keepalive timeout".
Proof.
  split.
  - exact (proj1 (connection_lost_shows_cause "keepalive timeout" "")).
  - apply (proj2 (connection_lost_shows_cause "keepalive timeout" "keepalive timeout")).
    reflexivity.
Defined.

(** ** What a run depends on *)

(** X16.  A run depends on the command line only through its second and
    third words: the program name and any word after the third change
    neither the exit status nor the trace. *)
Theorem command_line_use (w : world) (argv argv' : list string) :
  server_uri_arg argv = server_uri_arg argv' ->
  client_id_arg argv = client_id_arg argv' ->
  run w argv = run w argv'.
Proof.
  intros U I. unfold run, main. cbv zeta.
  rewrite !argv_1, !argv_2, U, I. reflexivity.
Qed.

Lemma command_line_use_witness :
  run slow ["ssl_publish"; "mqtts://broker:8883"; "me"; "-v"] =
  run slow ["./a.out"; "mqtts://broker:8883"; "me"].
Proof.
  apply (command_line_use slow); reflexivity.
Defined.

(** X17.  Publish is called only in a run whose connect operation
    succeeded, and disconnect only in a run whose publish wait returned. *)
Theorem calls_need_predecessors (w : world) (argv : list string) (e : event) :
  In e (trace_of w argv) ->
  (is_publish e = true -> connect_succeeded (trace_of w argv) = true) /\
  (is_disconnect e = true -> existsb pubwait_returned (trace_of w argv) = true).
Proof.
  run_paths; intros H; split; intros K; try reflexivity;
    in_trace H; subst e; discriminate K.
Qed.

Lemma calls_need_predecessors_witness :
  connect_succeeded (trace_of slow sample_argv) = true /\
  existsb pubwait_returned (trace_of slow sample_argv) = true.
Proof.
  split.
  - refine (proj1 (calls_need_predecessors slow sample_argv
             (Publish (make_message "hello" "Hello secure C++ world!" QOS false)
                (returns (mk_token 1))) _) _).
    + find_event.
    + reflexivity.
  - refine (proj2 (calls_need_predecessors slow sample_argv
             (Disconnect (returns (mk_token 0))) _) _).
    + find_event.
    + reflexivity.
Defined.
